(** * abcross.common: architecture table, binfmt_misc check, process helpers

    A shallow embedding of [src/abcross/common.py].

    Python [str] values are modelled as [string]; a character is a code
    point below 256.  Everything the module asks of its host (the machine
    name, the effective user id, the content of a file, the resolution of
    a path, the launch of a child process) is a field of the record [OS].
    What the module does to its host (log records, process launches) is
    collected, in order, in a trace of [event]s.  An uncaught Python
    exception is the [Raise] outcome. *)

From Stdlib Require Import String Ascii List Bool ZArith Lia.
Import ListNotations.
Open Scope list_scope.
Open Scope string_scope.

(** ** Outcomes, events and the monad of the embedding *)

Inductive exn : Type :=
| ValueError
| IndexError
| RuntimeError
| OSError (strerror : string).

Inductive outcome (A : Type) : Type :=
| Ret (a : A)
| Raise (e : exn).
Arguments Ret {A} a.
Arguments Raise {A} e.

(** ** The enumeration [Architecture] *)

Inductive Architecture : Type :=
| AMD64 | ARM64 | LOONGSON3 | POWERPC | PPC64EL | RISCV64 | MIPS64R6EL
| ARMV4 | ARMV6HF | ARMV7HF | M68K | PPC64 | I486.

(** Every member of the enumeration, in declaration order. *)
Definition members : list Architecture :=
  [AMD64; ARM64; LOONGSON3; POWERPC; PPC64EL; RISCV64; MIPS64R6EL;
   ARMV4; ARMV6HF; ARMV7HF; M68K; PPC64; I486].

(** [self.value] *)
Definition value (self : Architecture) : string :=
  match self with
  | AMD64 => "amd64"
  | ARM64 => "arm64"
  | LOONGSON3 => "loongson3"
  | POWERPC => "powerpc"
  | PPC64EL => "ppc64el"
  | RISCV64 => "riscv64"
  | MIPS64R6EL => "mips64r6el"
  | ARMV4 => "armv4"
  | ARMV6HF => "armv6hf"
  | ARMV7HF => "armv7hf"
  | M68K => "m68k"
  | PPC64 => "ppc64"
  | I486 => "i486"
  end.

(** Members of an [Enum] with distinct values compare equal only to
    themselves; the values above are pairwise distinct, so comparing the
    values is comparing the members. *)
Definition Architecture_eqb (a b : Architecture) : bool :=
  String.eqb (value a) (value b).

(** What the module logs and launches. *)
Inductive level : Type := INFO | CRITICAL.

(** The pieces of an f-string: literal text and the interpolated values,
    kept as values (their rendering is Python's [format]). *)
Inductive fpiece : Type :=
| FLit (text : string)
| FArch (a : Architecture)
| FStr (s : string)
| FList (l : list string).

Inductive event : Type :=
| Log (lvl : level) (msg : list fpiece)
| Exec (args : list string) (capture_output : bool).

(** A computation yields an outcome and the events it produced. *)
Definition M (A : Type) : Type := (outcome A * list event)%type.

Definition ret {A : Type} (a : A) : M A := (Ret a, []).

Definition raise {A : Type} (e : exn) : M A := (Raise e, []).

Definition bind {A B : Type} (m : M A) (f : A -> M B) : M B :=
  match m with
  | (Ret a, t) => let (r, t') := f a in (r, (t ++ t')%list)
  | (Raise e, t) => (Raise e, t)
  end.

Notation "x <- m ;; k" := (bind m (fun x => k))
  (at level 61, m at next level, right associativity).
Notation "m ;;; k" := (bind m (fun _ => k))
  (at level 61, right associativity).

Definition emit (e : event) : M unit := (Ret tt, [e]).

(** The outcome of a call into the host, which leaves no event. *)
Definition lift {A : Type} (o : outcome A) : M A := (o, []).

(** What a computation returned or raised, and what it did. *)
Definition returned {A : Type} (m : M A) : outcome A := fst m.
Definition events {A : Type} (m : M A) : list event := snd m.

(** ** Python's [match] statement on value patterns

    The clauses are tried in source order; a clause is a list of
    alternatives ([p1 | p2 | ...]) and a body.  The first clause with an
    alternative equal to the subject is taken; [case _] is the fallback. *)
Definition py_match {K V : Type} (eqb : K -> K -> bool) (subject : K)
    (clauses : list (list K * V)) (wildcard : V) : V :=
  match find (fun c => existsb (eqb subject) (fst c)) clauses with
  | Some c => snd c
  | None => wildcard
  end.

(** The clauses selecting the subject. *)
Definition entries {K V : Type} (eqb : K -> K -> bool) (subject : K)
    (clauses : list (list K * V)) : list (list K * V) :=
  filter (fun c => existsb (eqb subject) (fst c)) clauses.

(** The [case] clauses of [qemu_arch], lines 32 to 53. *)
Definition qemu_arch_cases : list (list Architecture * string) :=
  [ ([AMD64], "amd64");
    ([ARM64], "aarch64");
    ([LOONGSON3], "mips64el");
    ([POWERPC], "ppc");
    ([PPC64EL], "ppc64le");
    ([RISCV64], "riscv64");
    ([MIPS64R6EL], "mips64el");
    ([ARMV4; ARMV6HF; ARMV7HF], "arm");
    ([M68K], "m68k");
    ([PPC64], "ppc64");
    ([I486], "i386") ].

(** [Architecture.qemu_arch]: the architecture name in qemu nomenclature. *)
Definition qemu_arch (self : Architecture) : M string :=
  py_match Architecture_eqb self
    (map (fun c => (fst c, ret (snd c))) qemu_arch_cases)
    (raise ValueError).

(** [Architecture.qemu_bin] *)
Definition qemu_bin (self : Architecture) : M string :=
  arch <- qemu_arch self ;;
  ret ("qemu-" ++ arch ++ "-static").

(** The clauses of [match_current_arch], lines 64 to 76. *)
Definition match_current_arch_cases : list (list string * option Architecture) :=
  [ (["x86_64"], Some AMD64);
    (["aarch64"], Some ARM64);
    (["riscv64"], Some RISCV64);
    (["ppc"], Some POWERPC);
    (["ppc64le"], Some PPC64EL);
    (["mips64"], None) ].


(** ** The pieces of the Python runtime the module uses *)

(** [str.isspace] on one character, for code points below 256: the
    controls 9 to 13 and 28 to 31, the space, NEL (133) and NBSP (160). *)
Definition isspace (c : ascii) : bool :=
  let n := nat_of_ascii c in
  (((9 <=? n) && (n <=? 13)) || ((28 <=? n) && (n <=? 32))
   || (n =? 133) || (n =? 160))%nat.

(** [str.lstrip()], [str.rstrip()] and [str.strip()] without argument. *)
Fixpoint lstrip (s : string) : string :=
  match s with
  | EmptyString => EmptyString
  | String c s' => if isspace c then lstrip s' else s
  end.

Fixpoint rstrip (s : string) : string :=
  match s with
  | EmptyString => EmptyString
  | String c s' =>
      match rstrip s' with
      | EmptyString => if isspace c then EmptyString else String c EmptyString
      | r => String c r
      end
  end.

Definition strip (s : string) : string := rstrip (lstrip s).

(** [l[i]] on a list: [IndexError] out of range. *)
Definition getitem {A : Type} (l : list A) (i : nat) : M A :=
  match nth_error l i with
  | Some x => ret x
  | None => raise IndexError
  end.

(** The line feed, which the regular expression's [.] does not match. *)
Definition LF : ascii := ascii_of_nat 10.

(** [s] without the literal prefix [p], when it has it. *)
Fixpoint after_prefix (p s : string) : option string :=
  match p, s with
  | EmptyString, _ => Some s
  | String a p', String b s' => if Ascii.eqb a b then after_prefix p' s' else None
  | String _ _, EmptyString => None
  end.

(** The regular expression [.+lit], [lit] a literal, matched at the start
    of [s] the way Python's backtracking matcher does: the greedy [.+]
    takes one character that is not a line feed, then first tries to take
    more, and only when no longer match exists tries [lit] where it
    stands.  The result is the text matched. *)
Fixpoint dot_plus_then (lit s : string) : option string :=
  match s with
  | EmptyString => None
  | String c rest =>
      if Ascii.eqb c LF then None
      else match dot_plus_then lit rest with
           | Some m => Some (String c m)
           | None => if prefix lit rest then Some (String c lit) else None
           end
  end.

(** The characters that stand for themselves in a regular expression
    among those the interpreter names are made of. *)
Definition plain_char (c : ascii) : bool :=
  let n := nat_of_ascii c in
  (((48 <=? n) && (n <=? 57)) || ((97 <=? n) && (n <=? 122)) || (n =? 45))%nat.

Fixpoint plain (s : string) : bool :=
  match s with
  | EmptyString => true
  | String c s' => plain_char c && plain s'
  end.

(** [re.match(f"interpreter (?P<path>.+{base_name})", line)] followed by
    [.group("path")], line 94 and 98; [None] when there is no match.
    [base_name] is spliced into the pattern; for a [plain] one the
    pattern is the literal [interpreter ], then [.+], then the literal
    [base_name], and the group spans the last two. *)
Definition match_interp (base_name line : string) : option string :=
  match after_prefix "interpreter " line with
  | Some rest => dot_plus_then base_name rest
  | None => None
  end.

(** *** [pathlib.PosixPath] *)

(** A path as pathlib parses it: the root ([""], ["/"] or ["//"]) and
    the components after it. *)
Record posix_path : Type := { root : string; tail : list string }.

(** [s.split("/")] *)
Fixpoint split_sep (s : string) : list string :=
  match s with
  | EmptyString => [EmptyString]
  | String c s' =>
      let r := split_sep s' in
      if Ascii.eqb c "/" then EmptyString :: r
      else match r with
           | h :: t => String c h :: t
           | [] => [String c EmptyString]
           end
  end.

(** [posixpath.splitroot]: one leading slash, or three and more, make
    the root ["/"]; exactly two make the root ["//"]. *)
Definition splitroot (p : string) : string * string :=
  match p with
  | String "/" (String "/" (String "/" r)) => ("/", String "/" (String "/" r))
  | String "/" (String "/" r) => ("//", r)
  | String "/" r => ("/", r)
  | _ => ("", p)
  end.

(** [PosixPath(s)]: empty components and [.] are dropped. *)
Definition PosixPath (s : string) : posix_path :=
  let (rt, rel) := splitroot s in
  {| root := rt;
     tail := filter (fun x => negb (String.eqb x "") && negb (String.eqb x "."))
                    (split_sep rel) |}.

(** [path.name]: the last component, empty when there is none. *)
Definition name (p : posix_path) : string := last (tail p) "".

(** [str(path)] *)
Definition path_str (p : posix_path) : string :=
  match root p, tail p with
  | EmptyString, [] => "."
  | rt, tl => rt ++ String.concat "/" tl
  end.

(** ** The host *)

(** [open(path, 'r')] followed by [readlines()]: an [OSError] with its
    [strerror], or the lines, each with its line terminator. *)
Inductive open_result : Type :=
| Failed (strerror : string)
| Lines (content : list string).

(** What a launched child process wrote to its two streams, as text, and
    its exit status. *)
Record child : Type := { out : string; err : string; status : Z }.

(** The launch of a command: the child, run to its end, or the
    [OSError] of a command that could not be started. *)
Inductive launch : Type :=
| Started (c : child)
| NotStarted (strerror : string).

(** The host.  [resolve] is the non-strict [PosixPath.resolve()]: the
    absolute path with every symbolic link followed, or the exception
    the runtime raises instead (a [RuntimeError] on a loop of links, a
    [ValueError] on a path the system calls refuse). *)
Record OS : Type := {
  machine : string;                            (* platform.machine() *)
  geteuid : Z;                                 (* os.geteuid() *)
  readlines : string -> open_result;           (* open(..).readlines() *)
  resolve : posix_path -> outcome posix_path;  (* PosixPath.resolve() *)
  spawn : list string -> launch                (* launch and wait *)
}.

(** [Architecture.match_current_arch] *)
Definition match_current_arch (os : OS) : option Architecture :=
  py_match String.eqb (machine os) match_current_arch_cases None.

(** [logger.critical(msg)] and [logger.info(msg)] *)
Definition logger_critical (msg : list fpiece) : M unit := emit (Log CRITICAL msg).
Definition logger_info (msg : list fpiece) : M unit := emit (Log INFO msg).

(** The name of the binfmt_misc registration file, line 83. *)
Definition binfmt_reg_name (self : Architecture) : M string :=
  arch <- qemu_arch self ;;
  ret ("/proc/sys/fs/binfmt_misc/qemu-" ++ arch).

(** [Architecture.have_qemu], lines 80 to 102. *)
Definition have_qemu (os : OS) (self : Architecture) : M (option string) :=
  base_name <- qemu_bin self ;;
  reg_name <- binfmt_reg_name self ;;
  match readlines os reg_name with
  | Failed strerror =>
      logger_critical [FLit "Architecture "; FArch self;
                       FLit " is not registered with binfmt: "; FStr strerror] ;;;
      ret None
  | Lines binfmt_reg_content =>
      line0 <- getitem binfmt_reg_content 0 ;;
      if negb (String.eqb (strip line0) "enabled") then
        logger_critical [FLit "Architecture "; FArch self;
                         FLit " is not enabled with binfmt"] ;;;
        logger_critical [FLit ("Content of binfmt descriptor:" ++ String LF "");
                         FList binfmt_reg_content] ;;;
        ret None
      else
        line1 <- getitem binfmt_reg_content 1 ;;
        match match_interp base_name line1 with
        | None =>
            logger_critical [FLit "Architecture "; FArch self;
                             FLit " does not have valid interpreter"] ;;;
            ret None
        | Some path_interp =>
            resolved <- lift (resolve os (PosixPath path_interp)) ;;
            if negb (String.eqb (name resolved) base_name) then
              logger_critical [FLit "Architecture "; FArch self;
                               FLit " has incorrect interpreter "; FStr path_interp;
                               FLit " instead of "; FStr base_name] ;;;
              ret None
            else ret (Some path_interp)
        end
  end.

(** [Architecture.standard_sysroot] *)
Definition standard_sysroot (self : Architecture) : posix_path :=
  PosixPath ("/var/ab/cross-root/" ++ value self).

(** ** Process invocation *)

(** The [CompletedProcess] fields the module reads. *)
Record CompletedProcess : Type :=
  { stdout : option string; stderr : option string; returncode : Z }.

(** [subprocess.run(args, capture_output=.., text=True)]: the launch is
    recorded; a child that could not be started is an [OSError]; the
    streams are captured as text exactly when [capture_output] is set,
    and are [None] otherwise. *)
Definition subprocess_run (os : OS) (args : list string) (capture_output : bool)
    : M CompletedProcess :=
  emit (Exec args capture_output) ;;;
  match spawn os args with
  | Started c =>
      ret {| stdout := if capture_output then Some (out c) else None;
             stderr := if capture_output then Some (err c) else None;
             returncode := status c |}
  | NotStarted strerror => raise (OSError strerror)
  end.

(** [privileged_call], lines 109 to 116. *)
Definition privileged_call (os : OS) (argv : list string) (interactive : bool)
    : M (option string * option string * Z) :=
  let need_sudo := negb (Z.eqb (geteuid os) 0) in
  let call_args := ((if need_sudo then ["sudo"] else []) ++ argv)%list in
  (if need_sudo
   then logger_info [FLit "!!! About to run "; FList call_args]
   else ret tt) ;;;
  result <- subprocess_run os call_args (negb interactive) ;;
  ret (stdout result, stderr result, returncode result).

(** [regular_call], lines 119 to 121. *)
Definition regular_call (os : OS) (argv : list string) (interactive : bool)
    : M (option string * option string * Z) :=
  result <- subprocess_run os argv (negb interactive) ;;
  ret (stdout result, stderr result, returncode result).

(** ** Hosts used as concrete inputs *)

(** A line of a text file: its text and the terminator. *)
Definition line (text : string) : string := text ++ String LF "".

(** The text of a line, without the terminator when it has one. *)
Fixpoint line_text (l : string) : string :=
  match l with
  | EmptyString => EmptyString
  | String c EmptyString => if Ascii.eqb c LF then EmptyString else l
  | String c l' => String c (line_text l')
  end.

(** A host of an unprivileged user on an x86_64 machine, with the given
    files, symbolic links and programs. *)
Definition host (files : string -> open_result)
    (links : posix_path -> outcome posix_path)
    (programs : list string -> launch) : OS :=
  {| machine := "x86_64"; geteuid := 1000;
     readlines := files; resolve := links; spawn := programs |}.

(** The same host with another machine name. *)
Definition on_machine (m : string) (os : OS) : OS :=
  {| machine := m; geteuid := geteuid os;
     readlines := readlines os; resolve := resolve os; spawn := spawn os |}.

(** The same host for the superuser. *)
Definition as_root (os : OS) : OS :=
  {| machine := machine os; geteuid := 0;
     readlines := readlines os; resolve := resolve os; spawn := spawn os |}.

(** A file system holding one file. *)
Definition one_file (path : string) (content : list string) : string -> open_result :=
  fun p => if String.eqb p path then Lines content
           else Failed "No such file or directory".

Definition no_file : string -> open_result :=
  fun _ => Failed "No such file or directory".

(** No symbolic link anywhere: a path resolves to itself. *)
Definition no_links : posix_path -> outcome posix_path := fun p => Ret p.

(** One symbolic link, from [src] to [dst]. *)
Definition one_link (src dst : string) : posix_path -> outcome posix_path :=
  fun p => if String.eqb (path_str p) src then Ret (PosixPath dst) else Ret p.

Definition no_programs : list string -> launch :=
  fun _ => NotStarted "No such file or directory".

(** The registration of qemu-aarch64 as the kernel prints it. *)
Definition aarch64_reg : string := "/proc/sys/fs/binfmt_misc/qemu-aarch64".
Definition aarch64_lines (status interp : string) : list string :=
  [ line status; line interp; line "flags: OCF"; line "offset 0";
    line "magic 7f454c460201010000000000000000000200b700";
    line "mask ffffffffffffff00fffffffffffffffffeffffff" ].

Definition os_registered : OS :=
  host (one_file aarch64_reg
          (aarch64_lines "enabled" "interpreter /usr/bin/qemu-aarch64-static"))
       no_links no_programs.

(** The registered interpreter is a symbolic link into another directory. *)
Definition os_symlinked : OS :=
  host (one_file aarch64_reg
          (aarch64_lines "enabled" "interpreter /usr/bin/qemu-aarch64-static"))
       (one_link "/usr/bin/qemu-aarch64-static" "/usr/libexec/qemu/qemu-aarch64-static")
       no_programs.

Definition os_empty_file : OS := host (one_file aarch64_reg []) no_links no_programs.

Definition os_one_line : OS :=
  host (one_file aarch64_reg [line "enabled"]) no_links no_programs.

(** The status token is preceded by a space. *)
Definition os_padded : OS :=
  host (one_file aarch64_reg
          (aarch64_lines " enabled" "interpreter /usr/bin/qemu-aarch64-static"))
       no_links no_programs.

Definition os_unregistered : OS := host no_file no_links no_programs.

Definition os_disabled : OS :=
  host (one_file aarch64_reg
          (aarch64_lines "disabled" "interpreter /usr/bin/qemu-aarch64-static"))
       no_links no_programs.

(** The registration names the interpreter of another architecture. *)
Definition os_other_interp : OS :=
  host (one_file aarch64_reg
          (aarch64_lines "enabled" "interpreter /usr/bin/qemu-arm-static"))
       no_links no_programs.

(** The registered name is right but is a link to another binary. *)
Definition os_stale_link : OS :=
  host (one_file aarch64_reg
          (aarch64_lines "enabled" "interpreter /usr/bin/qemu-aarch64-static"))
       (one_link "/usr/bin/qemu-aarch64-static" "/usr/bin/qemu-arm-static")
       no_programs.

(** A host on which every command line starts a child that writes
    [listing] and [warning] and exits with status 2. *)
Definition exits_2 : list string -> launch :=
  fun _ => Started {| out := "listing"; err := "warning"; status := 2 |}.

Definition os_user : OS := host no_file no_links exits_2.

(** The events that are launches. *)
Definition launches (t : list event) : list event :=
  filter (fun e => match e with Exec _ _ => true | Log _ _ => false end) t.

(** The events that are log records. *)
Definition logged (t : list event) : list event :=
  filter (fun e => match e with Log _ _ => true | Exec _ _ => false end) t.

(** The host names [match_current_arch] knows a variant for. *)
Definition detected_machines : list string :=
  ["x86_64"; "aarch64"; "riscv64"; "ppc"; "ppc64le"].

(** The variants the source marks as retro. *)
Definition retro : list Architecture := [ARMV4; ARMV6HF; ARMV7HF; M68K; PPC64].

(** The argument vector [privileged_call] hands to [subprocess.run]. *)
Definition call_args (os : OS) (argv : list string) : list string :=
  ((if negb (Z.eqb (geteuid os) 0) then ["sudo"] else []) ++ argv)%list.

(** [s] has no line feed. *)
Fixpoint one_line (s : string) : bool :=
  match s with
  | EmptyString => true
  | String c s' => negb (Ascii.eqb c LF) && one_line s'
  end.

(** [s] is made of white space only. *)
Fixpoint all_space (s : string) : bool :=
  match s with
  | EmptyString => true
  | String c s' => isspace c && all_space s'
  end.

(** The variants that share a qemu name with another variant. *)
Definition mips64el_variants : list Architecture := [LOONGSON3; MIPS64R6EL].
Definition arm_variants : list Architecture := [ARMV4; ARMV6HF; ARMV7HF].

(** The variants [match_current_arch] can answer with. *)
Definition detected : list Architecture :=
  [AMD64; ARM64; RISCV64; POWERPC; PPC64EL].

(** The event is a log record of level [CRITICAL]. *)
Definition is_critical (e : event) : bool :=
  match e with
  | Log CRITICAL _ => true
  | _ => false
  end.

(** The two records of the branch of line 90, for a variant and the
    content read. *)
Definition not_enabled_records (a : Architecture) (content : list string)
    : list event :=
  [ Log CRITICAL [FLit "Architecture "; FArch a;
                  FLit " is not enabled with binfmt"];
    Log CRITICAL [FLit ("Content of binfmt descriptor:" ++ String LF "");
                  FList content] ].

(** A host differing from [os] in the content of one file only. *)
Definition with_file (path : string) (content : list string) (os : OS) : OS :=
  {| machine := machine os; geteuid := geteuid os;
     readlines := fun p => if String.eqb p path then Lines content
                           else readlines os p;
     resolve := resolve os; spawn := spawn os |}.

(** A host on which [ls] runs and nothing else can be started. *)
Definition only_ls : list string -> launch :=
  fun args =>
    match args with
    | "ls" :: _ => Started {| out := "bin"; err := ""; status := 0 |}
    | _ => NotStarted "No such file or directory"
    end.

Definition os_only_ls : OS := host no_file no_links only_ls.

(** The registered interpreter path holds the interpreter name twice. *)
Definition os_nested : OS :=
  host (one_file aarch64_reg
          (aarch64_lines "enabled"
             "interpreter /opt/qemu-aarch64-static/bin/qemu-aarch64-static -x"))
       no_links no_programs.

(** The registration is the single line [disabled]. *)
Definition os_one_line_disabled : OS :=
  host (one_file aarch64_reg [line "disabled"]) no_links no_programs.

(** A loop of symbolic links at [src], on which resolution raises; every
    other path resolves to itself. *)
Definition loop_at (src : string) : posix_path -> outcome posix_path :=
  fun p => if String.eqb (path_str p) src then Raise RuntimeError else Ret p.

(** The interpreter is registered; the loop of links is somewhere else. *)
Definition os_loop_elsewhere : OS :=
  host (one_file aarch64_reg
          (aarch64_lines "enabled" "interpreter /usr/bin/qemu-aarch64-static"))
       (loop_at "/tmp/loop") no_programs.

(** * Properties *)

(** ** The monad *)

Lemma bind_ret_l {A B : Type} (a : A) (f : A -> M B) : bind (ret a) f = f a.
Proof. unfold bind, ret. destruct (f a) as [r t]. reflexivity. Qed.

Lemma bind_raise_l {A B : Type} (e : exn) (f : A -> M B) :
  bind (raise e) f = raise e.
Proof. reflexivity. Qed.

Lemma bind_emit {B : Type} (e : event) (m : M B) :
  bind (emit e) (fun _ => m) = (returned m, e :: events m).
Proof. unfold bind, emit. destruct m as [r t]. reflexivity. Qed.

Lemma getitem_0 {A : Type} (x : A) (l : list A) : getitem (x :: l) 0 = ret x.
Proof. reflexivity. Qed.

Lemma getitem_1 {A : Type} (x y : A) (l : list A) : getitem (x :: y :: l) 1 = ret y.
Proof. reflexivity. Qed.

Lemma getitem_out_of_range {A : Type} (l : list A) (i : nat) :
  (List.length l <= i)%nat -> getitem l i = raise IndexError.
Proof.
  intros H. unfold getitem.
  destruct (nth_error l i) eqn:E; [|reflexivity].
  apply nth_error_None in H. congruence.
Qed.

(** ** The enumeration *)

Lemma members_complete (a : Architecture) : In a members.
Proof. destruct a; simpl; tauto. Qed.

Lemma value_injective (a b : Architecture) : value a = value b -> a = b.
Proof. destruct a, b; intros H; try reflexivity; discriminate H. Qed.

Lemma Architecture_eqb_eq (a b : Architecture) :
  Architecture_eqb a b = true <-> a = b.
Proof.
  unfold Architecture_eqb. rewrite String.eqb_eq. split.
  - apply value_injective.
  - intros ->. reflexivity.
Qed.

(** [qemu_arch] returns for every member; the names it returns. *)
Lemma qemu_arch_returns (a : Architecture) :
  exists arch, qemu_arch a = ret arch /\ plain arch = true.
Proof. destruct a; eexists; split; reflexivity. Qed.

Lemma qemu_bin_returns (a : Architecture) :
  exists arch, qemu_arch a = ret arch
    /\ qemu_bin a = ret ("qemu-" ++ arch ++ "-static")
    /\ binfmt_reg_name a = ret ("/proc/sys/fs/binfmt_misc/qemu-" ++ arch).
Proof.
  destruct (qemu_arch_returns a) as [arch [H _]]. exists arch.
  unfold qemu_bin, binfmt_reg_name. rewrite H, !bind_ret_l. auto.
Qed.

(** The interpreter names contain no character that is special in a
    regular expression, so splicing one into the pattern of
    [match_interp] adds a literal, and none contains a line feed. *)
Lemma qemu_bin_plain (a : Architecture) :
  exists base, qemu_bin a = ret base /\ plain base = true /\ one_line base = true.
Proof. destruct a; eexists; repeat split; reflexivity. Qed.

(** ** The regular expression *)

Lemma after_prefix_spec (p s r : string) :
  after_prefix p s = Some r <-> s = p ++ r.
Proof.
  revert s. induction p as [|a p IH]; intros s; simpl.
  - split; congruence.
  - destruct s as [|b s].
    + split; discriminate.
    + destruct (Ascii.eqb_spec a b) as [->|Hne].
      * rewrite IH. split; congruence.
      * split; [discriminate | congruence].
Qed.

Lemma prefix_spec (p s : string) :
  prefix p s = true <-> exists r, s = p ++ r.
Proof.
  revert s. induction p as [|a p IH]; intros s.
  - destruct s; simpl; split; eauto.
  - destruct s as [|b s]; simpl.
    + split; [discriminate | intros [r H]; discriminate H].
    + destruct (ascii_dec a b) as [->|Hne].
      * rewrite IH. split; intros [r H]; exists r; congruence.
      * split; [discriminate | intros [r H]; congruence].
Qed.

Lemma length_append (s t : string) :
  String.length (s ++ t) = (String.length s + String.length t)%nat.
Proof. induction s; simpl; congruence. Qed.

(** What a match of [.+lit] is: a non-empty text without line feed,
    then [lit], at the start of the subject. *)
Lemma dot_plus_then_sound (lit s m : string) :
  dot_plus_then lit s = Some m ->
  exists body rest,
    m = body ++ lit /\ body <> "" /\ one_line body = true /\ s = m ++ rest.
Proof.
  revert m. induction s as [|c s IH]; intros m; simpl; [discriminate|].
  destruct (Ascii.eqb c LF) eqn:Ec; [discriminate|].
  destruct (dot_plus_then lit s) as [m'|] eqn:Em.
  - intros [= <-]. destruct (IH m' eq_refl) as (body & rest & -> & Hb & Hl & ->).
    exists (String c body), rest. simpl. rewrite Ec, Hl.
    repeat split; congruence.
  - destruct (prefix lit s) eqn:Ep; [|discriminate].
    intros [= <-]. apply prefix_spec in Ep. destruct Ep as [r ->].
    exists (String c ""), r. simpl. rewrite Ec. repeat split; congruence.
Qed.


(** A line [match_interp] accepts. *)
Lemma match_interp_sound (base l p : string) :
  match_interp base l = Some p ->
  exists body rest,
    l = "interpreter " ++ p ++ rest /\ p = body ++ base
    /\ body <> "" /\ one_line body = true.
Proof.
  unfold match_interp.
  destruct (after_prefix "interpreter " l) as [r|] eqn:E; [|discriminate].
  apply after_prefix_spec in E. intros H.
  apply dot_plus_then_sound in H. destruct H as (body & rest & -> & Hb & Hl & ->).
  exists body, rest. subst l. auto.
Qed.

(** A line that does not start with [interpreter ] is rejected. *)
Lemma match_interp_needs_keyword (base l : string) :
  after_prefix "interpreter " l = None -> match_interp base l = None.
Proof. unfold match_interp. intros ->. reflexivity. Qed.

(** ** The availability check *)

Lemma bind_lift_ret {A B : Type} (a : A) (f : A -> M B) :
  bind (lift (Ret a)) f = f a.
Proof. exact (bind_ret_l a f). Qed.

(** The branches of [have_qemu], each with its outcome and diagnostics. *)
Lemma have_qemu_unfold (os : OS) (a : Architecture) (base reg : string) :
  qemu_bin a = ret base -> binfmt_reg_name a = ret reg ->
  have_qemu os a =
  match readlines os reg with
  | Failed strerror =>
      (Ret None, [Log CRITICAL [FLit "Architecture "; FArch a;
                    FLit " is not registered with binfmt: "; FStr strerror]])
  | Lines [] => raise IndexError
  | Lines (l0 :: more) =>
      if String.eqb (strip l0) "enabled" then
        match more with
        | [] => raise IndexError
        | l1 :: _ =>
            match match_interp base l1 with
            | None =>
                (Ret None, [Log CRITICAL [FLit "Architecture "; FArch a;
                              FLit " does not have valid interpreter"]])
            | Some p =>
                match resolve os (PosixPath p) with
                | Raise e => raise e
                | Ret resolved =>
                    if String.eqb (name resolved) base
                    then ret (Some p)
                    else (Ret None,
                          [Log CRITICAL [FLit "Architecture "; FArch a;
                             FLit " has incorrect interpreter "; FStr p;
                             FLit " instead of "; FStr base]])
                end
            end
        end
      else
        (Ret None,
         [Log CRITICAL [FLit "Architecture "; FArch a;
            FLit " is not enabled with binfmt"];
          Log CRITICAL [FLit ("Content of binfmt descriptor:" ++ String LF "");
            FList (l0 :: more)]])
  end.
Proof.
  intros Hb Hr. unfold have_qemu. rewrite Hb, Hr, !bind_ret_l.
  destruct (readlines os reg) as [e|[|l0 more]]; try reflexivity.
  rewrite getitem_0, bind_ret_l.
  destruct (String.eqb (strip l0) "enabled"); [|reflexivity].
  destruct more as [|l1 more]; [reflexivity|].
  cbn [negb]. rewrite getitem_1, bind_ret_l.
  destruct (match_interp base l1) as [p|]; [|reflexivity].
  destruct (resolve os (PosixPath p)) as [resolved|e]; [|reflexivity].
  rewrite bind_lift_ret.
  destruct (String.eqb (name resolved) base); reflexivity.
Qed.

(** C1, as amended.  The check succeeds exactly when the registration
    file is readable with at least two lines, its first line stripped of
    white space is [enabled], its second line matches the interpreter
    pattern, and the symlink-resolved path of the matched text has the
    expected interpreter file name as its final component; the value
    returned is then the text matched on the registration line, the path
    as registered, and not its resolution. *)
Theorem have_qemu_returns_registered_path
    (os : OS) (a : Architecture) (base reg : string) :
  qemu_bin a = ret base -> binfmt_reg_name a = ret reg ->
  forall p : string,
    returned (have_qemu os a) = Ret (Some p) <->
    exists l0 l1 more resolved,
      readlines os reg = Lines (l0 :: l1 :: more)
      /\ strip l0 = "enabled"
      /\ match_interp base l1 = Some p
      /\ resolve os (PosixPath p) = Ret resolved
      /\ name resolved = base.
Proof.
  intros Hb Hr p. rewrite (have_qemu_unfold os a base reg Hb Hr). split.
  - destruct (readlines os reg) as [e|[|l0 [|l1 more]]]; cbn; try discriminate.
    + destruct (String.eqb_spec (strip l0) "enabled"); discriminate.
    + destruct (String.eqb_spec (strip l0) "enabled") as [H0|]; [|discriminate].
      destruct (match_interp base l1) as [q|] eqn:Hm; [|discriminate].
      destruct (resolve os (PosixPath q)) as [resolved|e] eqn:Hres; [|discriminate].
      destruct (String.eqb_spec (name resolved) base) as [Hn|]; [|discriminate].
      cbn. intros [= ->]. exists l0, l1, more, resolved. auto.
  - intros (l0 & l1 & more & resolved & -> & H0 & -> & -> & Hn).
    rewrite H0, Hn, String.eqb_refl. cbn. rewrite String.eqb_refl. reflexivity.
Qed.

(** The theorem at the registration of the [arm64] variant: the value
    returned is [/usr/bin/qemu-aarch64-static]. *)
Lemma have_qemu_returns_registered_path_witness :
  qemu_bin ARM64 = ret "qemu-aarch64-static"
  /\ binfmt_reg_name ARM64 = ret aarch64_reg
  /\ returned (have_qemu os_registered ARM64)
     = Ret (Some "/usr/bin/qemu-aarch64-static").
Proof.
  split; [reflexivity|]. split; [reflexivity|].
  apply (proj2 (have_qemu_returns_registered_path os_registered ARM64
                  "qemu-aarch64-static" aarch64_reg eq_refl eq_refl
                  "/usr/bin/qemu-aarch64-static")).
  exists (line "enabled"), (line "interpreter /usr/bin/qemu-aarch64-static"),
    [line "flags: OCF"; line "offset 0";
     line "magic 7f454c460201010000000000000000000200b700";
     line "mask ffffffffffffff00fffffffffffffffffeffffff"],
    (PosixPath "/usr/bin/qemu-aarch64-static").
  repeat split; reflexivity.
Defined.

(** C1 as stated fails where the registered interpreter is a symbolic
    link: every condition of success holds and the check succeeds, yet
    it returns the registered path [/usr/bin/qemu-aarch64-static] while
    the resolved path is [/usr/libexec/qemu/qemu-aarch64-static]. *)
Lemma have_qemu_does_not_return_resolved_path :
  readlines os_symlinked aarch64_reg
    = Lines (aarch64_lines "enabled" "interpreter /usr/bin/qemu-aarch64-static")
  /\ strip (line "enabled") = "enabled"
  /\ match_interp "qemu-aarch64-static"
       (line "interpreter /usr/bin/qemu-aarch64-static")
     = Some "/usr/bin/qemu-aarch64-static"
  /\ resolve os_symlinked (PosixPath "/usr/bin/qemu-aarch64-static")
     = Ret (PosixPath "/usr/libexec/qemu/qemu-aarch64-static")
  /\ name (PosixPath "/usr/libexec/qemu/qemu-aarch64-static")
     = "qemu-aarch64-static"
  /\ path_str (PosixPath "/usr/libexec/qemu/qemu-aarch64-static")
     = "/usr/libexec/qemu/qemu-aarch64-static"
  /\ have_qemu os_symlinked ARM64 = ret (Some "/usr/bin/qemu-aarch64-static")
  /\ returned (have_qemu os_symlinked ARM64)
     <> Ret (Some "/usr/libexec/qemu/qemu-aarch64-static").
Proof. repeat split; try reflexivity. vm_compute. discriminate. Qed.

(** Where nothing on the way is a symbolic link the two paths coincide:
    the example of the specification. *)
Lemma have_qemu_arm64_example :
  have_qemu os_registered ARM64 = ret (Some "/usr/bin/qemu-aarch64-static")
  /\ resolve os_registered (PosixPath "/usr/bin/qemu-aarch64-static")
     = Ret (PosixPath "/usr/bin/qemu-aarch64-static")
  /\ path_str (PosixPath "/usr/bin/qemu-aarch64-static")
     = "/usr/bin/qemu-aarch64-static".
Proof. repeat split; reflexivity. Qed.

(** C2, as amended.  For every variant and every readable registration
    file, the check returns normally, with a path or with [None],
    exactly when the file has a first line and, where that line stripped
    of white space is [enabled], it also has a second line and the
    resolution of the path matched on it, if one is matched, does not
    raise.  A file of one line that is not [enabled] is answered with
    [None]; what resolution does on other paths is of no account. *)
Theorem have_qemu_returns_normally_iff
    (os : OS) (a : Architecture) (base reg : string) (content : list string) :
  qemu_bin a = ret base -> binfmt_reg_name a = ret reg ->
  readlines os reg = Lines content ->
  (exists r : option string, returned (have_qemu os a) = Ret r) <->
  exists l0 more,
    content = l0 :: more
    /\ (strip l0 <> "enabled"
        \/ exists l1 more',
             more = l1 :: more'
             /\ forall p, match_interp base l1 = Some p ->
                  exists resolved, resolve os (PosixPath p) = Ret resolved).
Proof.
  intros Hb Hr Hc. rewrite (have_qemu_unfold os a base reg Hb Hr), Hc.
  destruct content as [|l0 more].
  - split; [intros [r H]; discriminate H | intros (l & m & H & _); discriminate H].
  - destruct (String.eqb_spec (strip l0) "enabled") as [H0|H0].
    + destruct more as [|l1 more'].
      * split; [intros [r H]; discriminate H|].
        intros (l & m & [= <- <-] & [H|(l1 & m' & H & _)]);
          [contradiction | discriminate H].
      * destruct (match_interp base l1) as [p|] eqn:Hm.
        -- destruct (resolve os (PosixPath p)) as [resolved|e] eqn:Hres.
           ++ split.
              ** intros _. exists l0, (l1 :: more'). split; [reflexivity|].
                 right. exists l1, more'. split; [reflexivity|].
                 intros q Hq. assert (q = p) by congruence. subst q. eauto.
              ** intros _. destruct (String.eqb (name resolved) base);
                   eexists; reflexivity.
           ++ split; [intros [r H]; discriminate H|].
              intros (l & m & [= <- <-] & [H|(l1' & m' & [= <- <-] & H)]);
                [contradiction|].
              destruct (H p Hm) as [resolved H']. congruence.
        -- split; [|intros _; eexists; reflexivity].
           intros _. exists l0, (l1 :: more'). split; [reflexivity|].
           right. exists l1, more'. split; [reflexivity|].
           intros q Hq. congruence.
    + split; [|intros _; eexists; reflexivity].
      intros _. exists l0, more. auto.
Qed.

(** The theorem on a file of the single line [disabled], and on a host
    with a loop of links away from the registered interpreter. *)
Lemma have_qemu_returns_normally_iff_witness :
  (readlines os_one_line_disabled aarch64_reg = Lines [line "disabled"]
   /\ exists r : option string,
        returned (have_qemu os_one_line_disabled ARM64) = Ret r)
  /\ (resolve os_loop_elsewhere (PosixPath "/tmp/loop") = Raise RuntimeError
      /\ exists r : option string,
           returned (have_qemu os_loop_elsewhere ARM64) = Ret r).
Proof.
  split; (split; [reflexivity|]).
  - apply (proj2 (have_qemu_returns_normally_iff os_one_line_disabled ARM64
                    "qemu-aarch64-static" aarch64_reg [line "disabled"]
                    eq_refl eq_refl eq_refl)).
    exists (line "disabled"), []. split; [reflexivity|].
    left. vm_compute. discriminate.
  - apply (proj2 (have_qemu_returns_normally_iff os_loop_elsewhere ARM64
                    "qemu-aarch64-static" aarch64_reg
                    (aarch64_lines "enabled"
                       "interpreter /usr/bin/qemu-aarch64-static")
                    eq_refl eq_refl eq_refl)).
    exists (line "enabled"),
      [line "interpreter /usr/bin/qemu-aarch64-static";
       line "flags: OCF"; line "offset 0";
       line "magic 7f454c460201010000000000000000000200b700";
       line "mask ffffffffffffff00fffffffffffffffffeffffff"].
    split; [reflexivity|]. right.
    exists (line "interpreter /usr/bin/qemu-aarch64-static"),
      [line "flags: OCF"; line "offset 0";
       line "magic 7f454c460201010000000000000000000200b700";
       line "mask ffffffffffffff00fffffffffffffffffeffffff"].
    split; [reflexivity|].
    intros p H. vm_compute in H. injection H as <-.
    eexists. reflexivity.
Defined.

(** C2 as stated fails on a readable file of fewer than two lines: on
    an empty file [binfmt_reg_content[0]] raises [IndexError], and on
    the single line [enabled] it is [binfmt_reg_content[1]] that does. *)
Lemma have_qemu_raises_on_short_file :
  readlines os_empty_file aarch64_reg = Lines []
  /\ have_qemu os_empty_file ARM64 = raise IndexError
  /\ readlines os_one_line aarch64_reg = Lines [line "enabled"]
  /\ have_qemu os_one_line ARM64 = raise IndexError.
Proof. repeat split; reflexivity. Qed.

(** On which readable files the check raises: the two short ones, and
    those whose registered path the host fails to resolve. *)
Lemma have_qemu_raises_iff
    (os : OS) (a : Architecture) (base reg : string) (content : list string) :
  qemu_bin a = ret base -> binfmt_reg_name a = ret reg ->
  readlines os reg = Lines content ->
  forall e : exn,
    returned (have_qemu os a) = Raise e <->
    (content = [] /\ e = IndexError)
    \/ (exists l0, content = [l0] /\ strip l0 = "enabled" /\ e = IndexError)
    \/ (exists l0 l1 more p,
          content = l0 :: l1 :: more /\ strip l0 = "enabled"
          /\ match_interp base l1 = Some p
          /\ resolve os (PosixPath p) = Raise e).
Proof.
  intros Hb Hr Hc e.
  rewrite (have_qemu_unfold os a base reg Hb Hr), Hc.
  destruct content as [|l0 [|l1 more]].
  - split.
    + intros [= <-]. auto.
    + intros [[_ ->]|[(l & H & _)|(l0 & l1 & more & p & H & _)]];
        [reflexivity | discriminate H | discriminate H].
  - destruct (String.eqb_spec (strip l0) "enabled") as [H0|H0].
    + split.
      * intros [= <-]. right; left. eauto.
      * intros [[H _]|[(l & _ & _ & ->)|(l & l1 & more & p & H & _)]];
          [discriminate H | reflexivity | discriminate H].
    + split; [discriminate|].
      intros [[H _]|[(l & [= <-] & H & _)|(l & l1 & more & p & H & _)]];
        [discriminate H | contradiction | discriminate H].
  - destruct (String.eqb_spec (strip l0) "enabled") as [H0|H0].
    + destruct (match_interp base l1) as [p|] eqn:Hm.
      * destruct (resolve os (PosixPath p)) as [resolved|e'] eqn:Hres.
        -- split.
           ++ destruct (String.eqb (name resolved) base); discriminate.
           ++ intros [[H _]|[(l & H & _)|(l & l1' & more' & q & H & _ & Hq & Hq')]];
                [discriminate H | discriminate H |].
              injection H as <- <- <-. congruence.
        -- split.
           ++ intros [= <-]. right; right. exists l0, l1, more, p. auto.
           ++ intros [[H _]|[(l & H & _)|(l & l1' & more' & q & H & _ & Hq & Hq')]];
                [discriminate H | discriminate H |].
              injection H as <- <- <-. cbn. congruence.
      * split; [discriminate|].
        intros [[H _]|[(l & H & _)|(l & l1' & more' & q & H & _ & Hq & _)]];
          [discriminate H | discriminate H |].
        injection H as <- <- <-. congruence.
    + split; [discriminate|].
      intros [[H _]|[(l & H & _)|(l & l1' & more' & q & H & Hl & _)]];
        [discriminate H | discriminate H |].
      injection H as <- <- <-. contradiction.
Qed.

(** C3, as amended.  If the first line of the registration file,
    stripped of leading and trailing white space, is not [enabled], the
    check returns [None], after two diagnostics. *)
Theorem have_qemu_not_enabled
    (os : OS) (a : Architecture) (reg l0 : string) (more : list string) :
  binfmt_reg_name a = ret reg ->
  readlines os reg = Lines (l0 :: more) ->
  strip l0 <> "enabled" ->
  returned (have_qemu os a) = Ret None
  /\ List.length (events (have_qemu os a)) = 2%nat.
Proof.
  intros Hr Hc H0.
  destruct (qemu_bin_returns a) as (arch & _ & Hb & _).
  rewrite (have_qemu_unfold os a _ reg Hb Hr), Hc.
  apply String.eqb_neq in H0. rewrite H0. split; reflexivity.
Qed.

Lemma have_qemu_not_enabled_witness :
  binfmt_reg_name ARM64 = ret aarch64_reg
  /\ strip (line "disabled") <> "enabled"
  /\ returned (have_qemu os_disabled ARM64) = Ret None
  /\ List.length (events (have_qemu os_disabled ARM64)) = 2%nat.
Proof.
  split; [reflexivity|]. split; [vm_compute; discriminate|].
  apply (have_qemu_not_enabled os_disabled ARM64 aarch64_reg (line "disabled")
           [line "interpreter /usr/bin/qemu-aarch64-static";
            line "flags: OCF"; line "offset 0";
            line "magic 7f454c460201010000000000000000000200b700";
            line "mask ffffffffffffff00fffffffffffffffffeffffff"]).
  - reflexivity.
  - reflexivity.
  - vm_compute; discriminate.
Defined.

(** C3 as stated fails on a first line that is not exactly [enabled]
    but is so once stripped: with a space before the token the check
    goes on, and here succeeds. *)
Lemma have_qemu_accepts_padded_enabled :
  readlines os_padded aarch64_reg
    = Lines (aarch64_lines " enabled" "interpreter /usr/bin/qemu-aarch64-static")
  /\ line_text (line " enabled") = " enabled"
  /\ line_text (line " enabled") <> "enabled"
  /\ line " enabled" <> "enabled"
  /\ have_qemu os_padded ARM64 = ret (Some "/usr/bin/qemu-aarch64-static").
Proof.
  repeat split; try reflexivity; vm_compute; discriminate.
Qed.

(** C4.  The check returns [None] when (a) the registration file cannot
    be opened, (b) its first line is [disabled], (c) its second line
    does not match the interpreter pattern, (d) the matched path
    resolves to a file of another name than the expected interpreter. *)
Theorem have_qemu_unavailable
    (os : OS) (a : Architecture) (base reg : string) :
  qemu_bin a = ret base -> binfmt_reg_name a = ret reg ->
  (forall strerror, readlines os reg = Failed strerror ->
     returned (have_qemu os a) = Ret None)
  /\ (forall l0 more, readlines os reg = Lines (l0 :: more) ->
        strip l0 = "disabled" -> returned (have_qemu os a) = Ret None)
  /\ (forall l0 l1 more, readlines os reg = Lines (l0 :: l1 :: more) ->
        match_interp base l1 = None -> returned (have_qemu os a) = Ret None)
  /\ (forall l0 l1 more p resolved,
        readlines os reg = Lines (l0 :: l1 :: more) ->
        match_interp base l1 = Some p ->
        resolve os (PosixPath p) = Ret resolved ->
        name resolved <> base ->
        returned (have_qemu os a) = Ret None).
Proof.
  intros Hb Hr. rewrite (have_qemu_unfold os a base reg Hb Hr).
  split; [|split; [|split]].
  - intros e ->. reflexivity.
  - intros l0 more -> H0. rewrite H0. reflexivity.
  - intros l0 l1 more -> Hm. rewrite Hm.
    destruct (String.eqb (strip l0) "enabled"); reflexivity.
  - intros l0 l1 more p resolved -> Hm Hres Hn. rewrite Hm, Hres.
    apply String.eqb_neq in Hn. rewrite Hn.
    destruct (String.eqb (strip l0) "enabled"); reflexivity.
Qed.

Lemma have_qemu_unavailable_witness :
  returned (have_qemu os_unregistered ARM64) = Ret None
  /\ returned (have_qemu os_disabled ARM64) = Ret None
  /\ returned (have_qemu os_other_interp ARM64) = Ret None
  /\ returned (have_qemu os_stale_link ARM64) = Ret None.
Proof.
  pose (more := [line "flags: OCF"; line "offset 0";
                 line "magic 7f454c460201010000000000000000000200b700";
                 line "mask ffffffffffffff00fffffffffffffffffeffffff"]).
  split; [|split; [|split]].
  - apply (proj1 (have_qemu_unavailable os_unregistered ARM64
                    "qemu-aarch64-static" aarch64_reg eq_refl eq_refl)
             "No such file or directory").
    reflexivity.
  - apply (proj1 (proj2 (have_qemu_unavailable os_disabled ARM64
                    "qemu-aarch64-static" aarch64_reg eq_refl eq_refl))
             (line "disabled")
             (line "interpreter /usr/bin/qemu-aarch64-static" :: more));
      reflexivity.
  - apply (proj1 (proj2 (proj2 (have_qemu_unavailable os_other_interp ARM64
                    "qemu-aarch64-static" aarch64_reg eq_refl eq_refl)))
             (line "enabled") (line "interpreter /usr/bin/qemu-arm-static") more);
      reflexivity.
  - apply (proj2 (proj2 (proj2 (have_qemu_unavailable os_stale_link ARM64
                    "qemu-aarch64-static" aarch64_reg eq_refl eq_refl)))
             (line "enabled") (line "interpreter /usr/bin/qemu-aarch64-static") more
             "/usr/bin/qemu-aarch64-static" (PosixPath "/usr/bin/qemu-arm-static"));
      [reflexivity | reflexivity | reflexivity | vm_compute; discriminate].
Defined.

(** ** Process invocation *)

Lemma subprocess_run_events (os : OS) (args : list string) (capture : bool) :
  events (subprocess_run os args capture) = [Exec args capture].
Proof. unfold subprocess_run. destruct (spawn os args); reflexivity. Qed.

Lemma privileged_call_events (os : OS) (argv : list string) (interactive : bool) :
  events (privileged_call os argv interactive) =
  ((if negb (Z.eqb (geteuid os) 0)
    then [Log INFO [FLit "!!! About to run "; FList (call_args os argv)]]
    else []) ++ [Exec (call_args os argv) (negb interactive)])%list.
Proof.
  unfold privileged_call, call_args, subprocess_run.
  destruct (negb (Z.eqb (geteuid os) 0));
    destruct (spawn os _); reflexivity.
Qed.

(** C5.  Without superuser rights [privileged_call] logs the full
    command, [sudo] first, and hands that command to the launcher; with
    them it hands over [argv] as it is and logs nothing.  In both cases
    the launcher is called once. *)
Theorem privileged_call_escalation
    (os : OS) (argv : list string) (interactive : bool) :
  (geteuid os <> 0%Z ->
     events (privileged_call os argv interactive) =
     [ Log INFO [FLit "!!! About to run "; FList ("sudo" :: argv)];
       Exec ("sudo" :: argv) (negb interactive) ])
  /\ (geteuid os = 0%Z ->
        events (privileged_call os argv interactive) =
        [ Exec argv (negb interactive) ]
        /\ logged (events (privileged_call os argv interactive)) = []).
Proof.
  rewrite privileged_call_events. unfold call_args. split; intros H.
  - apply Z.eqb_neq in H. rewrite H. reflexivity.
  - rewrite H. split; reflexivity.
Qed.

Lemma privileged_call_escalation_witness :
  (geteuid os_user <> 0%Z
   /\ events (privileged_call os_user ["mount"; "--bind"; "/dev"] false) =
      [ Log INFO [FLit "!!! About to run ";
                  FList ["sudo"; "mount"; "--bind"; "/dev"]];
        Exec ["sudo"; "mount"; "--bind"; "/dev"] true ])
  /\ (geteuid (as_root os_user) = 0%Z
      /\ events (privileged_call (as_root os_user) ["mount"; "--bind"; "/dev"] false) =
         [ Exec ["mount"; "--bind"; "/dev"] true ]).
Proof.
  split; split.
  - simpl; lia.
  - apply (proj1 (privileged_call_escalation os_user
                    ["mount"; "--bind"; "/dev"] false)).
    simpl; lia.
  - reflexivity.
  - apply (proj2 (privileged_call_escalation (as_root os_user)
                    ["mount"; "--bind"; "/dev"] false)).
    reflexivity.
Defined.

(** C8.  Without [interactive], once the launcher has started a child
    for the command, both calls return what the child wrote to its two
    streams, as text, and its exit status unchanged; the launcher is
    called exactly once, whatever the status. *)
Theorem calls_return_child_status (os : OS) (argv : list string) (c : child) :
  (spawn os argv = Started c ->
     returned (regular_call os argv false)
       = Ret (Some (out c), Some (err c), status c)
     /\ launches (events (regular_call os argv false)) = [Exec argv true])
  /\ (spawn os (call_args os argv) = Started c ->
        returned (privileged_call os argv false)
          = Ret (Some (out c), Some (err c), status c)
        /\ launches (events (privileged_call os argv false))
           = [Exec (call_args os argv) true]).
Proof.
  split; intros H.
  - unfold regular_call, subprocess_run. rewrite H. split; reflexivity.
  - split.
    + unfold privileged_call, subprocess_run. fold (call_args os argv).
      rewrite H. destruct (negb (Z.eqb (geteuid os) 0)); reflexivity.
    + rewrite privileged_call_events.
      destruct (negb (Z.eqb (geteuid os) 0)); reflexivity.
Qed.

Lemma calls_return_child_status_witness :
  spawn os_user ["false"]
    = Started {| out := "listing"; err := "warning"; status := 2 |}
  /\ returned (regular_call os_user ["false"] false)
     = Ret (Some "listing", Some "warning", 2%Z)
  /\ spawn os_user (call_args os_user ["false"])
     = Started {| out := "listing"; err := "warning"; status := 2 |}
  /\ returned (privileged_call os_user ["false"] false)
     = Ret (Some "listing", Some "warning", 2%Z).
Proof.
  pose (c := {| out := "listing"; err := "warning"; status := 2 |}).
  split; [reflexivity|]. split.
  - apply (proj1 (proj1 (calls_return_child_status os_user ["false"] c) eq_refl)).
  - split; [reflexivity|].
    apply (proj1 (proj2 (calls_return_child_status os_user ["false"] c) eq_refl)).
Defined.

(** ** The architecture table *)

Lemma py_match_no_clause {K V : Type} (eqb : K -> K -> bool) (subject : K)
    (clauses : list (list K * V)) (wildcard : V) :
  (forall c, In c clauses -> existsb (eqb subject) (fst c) = false) ->
  py_match eqb subject clauses wildcard = wildcard.
Proof.
  intros H. unfold py_match.
  destruct (find _ clauses) as [c|] eqn:E; [|reflexivity].
  apply find_some in E. destruct E as [Hin Hc].
  rewrite (H c Hin) in Hc. discriminate.
Qed.

(** C6.  [match_current_arch] returns no variant on a host whose
    machine name is outside x86_64, aarch64, riscv64, ppc and ppc64le,
    on a mips64 host in particular and on a host named as a retro
    variant is; on hosts of those five names it returns amd64, arm64,
    riscv64, powerpc and ppc64el. *)
Theorem match_current_arch_table (os : OS) :
  (~ In (machine os) detected_machines -> match_current_arch os = None)
  /\ (machine os = "mips64" -> match_current_arch os = None)
  /\ (forall a, In a retro ->
        machine os = value a \/ qemu_arch a = ret (machine os) ->
        match_current_arch os = None)
  /\ (machine os = "x86_64" -> match_current_arch os = Some AMD64)
  /\ (machine os = "aarch64" -> match_current_arch os = Some ARM64)
  /\ (machine os = "riscv64" -> match_current_arch os = Some RISCV64)
  /\ (machine os = "ppc" -> match_current_arch os = Some POWERPC)
  /\ (machine os = "ppc64le" -> match_current_arch os = Some PPC64EL).
Proof.
  unfold match_current_arch. generalize (machine os) as m. intros m.
  split; [|split; [|split]].
  - intros Hnot.
    destruct (String.eqb_spec m "mips64") as [->|Hm]; [reflexivity|].
    apply py_match_no_clause. intros c Hc.
    destruct (existsb (String.eqb m) (fst c)) eqn:E; [|reflexivity].
    apply existsb_exists in E. destruct E as (m' & Hin & He).
    apply String.eqb_eq in He. subst m'. exfalso.
    simpl in Hc, Hnot.
    repeat (destruct Hc as [<-|Hc];
            [simpl in Hin; intuition congruence|]).
    exact Hc.
  - intros ->. reflexivity.
  - intros a Ha Hm. simpl in Ha.
    repeat (destruct Ha as [<-|Ha];
            [destruct Hm as [->|[= <-]]; reflexivity|]).
    destruct Ha.
  - repeat split; intros ->; reflexivity.
Qed.

Lemma match_current_arch_table_witness :
  (~ In (machine (on_machine "mips64" os_user)) detected_machines
   /\ match_current_arch (on_machine "mips64" os_user) = None)
  /\ (machine os_user = "x86_64" /\ match_current_arch os_user = Some AMD64).
Proof.
  assert (H : ~ In (machine (on_machine "mips64" os_user)) detected_machines).
  { simpl. intros [H|[H|[H|[H|[H|[]]]]]]; discriminate H. }
  split; split.
  - exact H.
  - exact (proj1 (match_current_arch_table (on_machine "mips64" os_user)) H).
  - reflexivity.
  - exact (proj1 (proj2 (proj2 (proj2 (match_current_arch_table os_user)))) eq_refl).
Defined.

(** Detection never answers with a retro variant. *)
Lemma match_current_arch_range (os : OS) (a : Architecture) :
  match_current_arch os = Some a ->
  In a [AMD64; ARM64; RISCV64; POWERPC; PPC64EL].
Proof.
  unfold match_current_arch, py_match. simpl.
  repeat (destruct (String.eqb (machine os) _);
          [simpl; intros [= <-]; simpl; tauto|]).
  simpl. discriminate.
Qed.

(** C7.  [qemu_arch] returns a string for every variant and never
    raises [ValueError]: each variant is selected by exactly one clause
    of the table. *)
Theorem qemu_arch_total (a : Architecture) :
  (exists arch : string, qemu_arch a = ret arch)
  /\ returned (qemu_arch a) <> Raise ValueError
  /\ List.length (entries Architecture_eqb a qemu_arch_cases) = 1%nat.
Proof.
  destruct a; (split; [eexists; reflexivity | split; [discriminate | reflexivity]]).
Qed.

(** C9.  [qemu_bin] is [qemu-], the qemu architecture name and
    [-static]; [standard_sysroot] is the path [/var/ab/cross-root/]
    followed by the variant's own name. *)
Theorem qemu_bin_and_sysroot (a : Architecture) :
  (exists arch : string,
     qemu_arch a = ret arch /\ qemu_bin a = ret ("qemu-" ++ arch ++ "-static"))
  /\ standard_sysroot a
     = {| root := "/"; tail := ["var"; "ab"; "cross-root"; value a] |}
  /\ path_str (standard_sysroot a) = "/var/ab/cross-root/" ++ value a
  /\ path_str (standard_sysroot AMD64) = "/var/ab/cross-root/amd64".
Proof.
  split.
  - destruct (qemu_bin_returns a) as (arch & H1 & H2 & _). eauto.
  - destruct a; repeat split; reflexivity.
Qed.

(** The three 32-bit ARM variants share the name [arm]. *)
Lemma qemu_arch_arm (a : Architecture) :
  In a [ARMV4; ARMV6HF; ARMV7HF] -> qemu_arch a = ret "arm".
Proof. simpl. intros [<-|[<-|[<-|[]]]]; reflexivity. Qed.

(** C10.  The distinct variants loongson3 and mips64r6el have the same
    qemu name [mips64el], hence the same interpreter name and the same
    registration file, and on every host the availability check returns
    the same for both. *)
Theorem loongson3_mips64r6el_coincide :
  LOONGSON3 <> MIPS64R6EL
  /\ qemu_arch LOONGSON3 = ret "mips64el"
  /\ qemu_arch MIPS64R6EL = ret "mips64el"
  /\ qemu_bin LOONGSON3 = qemu_bin MIPS64R6EL
  /\ binfmt_reg_name LOONGSON3 = ret "/proc/sys/fs/binfmt_misc/qemu-mips64el"
  /\ binfmt_reg_name MIPS64R6EL = ret "/proc/sys/fs/binfmt_misc/qemu-mips64el"
  /\ forall os : OS,
       returned (have_qemu os LOONGSON3) = returned (have_qemu os MIPS64R6EL).
Proof.
  split; [discriminate|]. do 5 (split; [reflexivity|]). intros os.
  rewrite (have_qemu_unfold os LOONGSON3 "qemu-mips64el-static"
             "/proc/sys/fs/binfmt_misc/qemu-mips64el" eq_refl eq_refl).
  rewrite (have_qemu_unfold os MIPS64R6EL "qemu-mips64el-static"
             "/proc/sys/fs/binfmt_misc/qemu-mips64el" eq_refl eq_refl).
  destruct (readlines os _) as [e|[|l0 [|l1 more]]]; try reflexivity.
  - destruct (String.eqb (strip l0) "enabled"); reflexivity.
  - destruct (String.eqb (strip l0) "enabled"); [|reflexivity].
    destruct (match_interp _ l1) as [p|]; [|reflexivity].
    destruct (resolve os _) as [resolved|e]; [|reflexivity].
    destruct (String.eqb _ _); reflexivity.
Qed.

(** * Further properties of the module *)

(** ** Names of the architecture table *)

(** X1.  Two variants have the same qemu name exactly when they are the
    same variant, or both of loongson3 and mips64r6el, or both among
    the three 32-bit ARM variants: [qemu_arch] identifies no others. *)
Theorem qemu_arch_collisions (a b : Architecture) :
  qemu_arch a = qemu_arch b <->
  a = b
  \/ (In a mips64el_variants /\ In b mips64el_variants)
  \/ (In a arm_variants /\ In b arm_variants).
Proof.
  split.
  - destruct a, b; intros H;
      try (left; reflexivity);
      try (vm_compute in H; discriminate H);
      right; simpl; tauto.
  - intros [->|[[Ha Hb]|[Ha Hb]]]; [reflexivity | |];
      simpl in Ha, Hb;
      repeat (destruct Ha as [<-|Ha]; [|]);
      try contradiction;
      repeat (destruct Hb as [<-|Hb]; [reflexivity|]);
      contradiction.
Qed.

(** X2.  Distinct variants have distinct standard sysroots, and the last
    component of a variant's sysroot is its own name. *)
Theorem standard_sysroot_injective (a b : Architecture) :
  (path_str (standard_sysroot a) = path_str (standard_sysroot b) -> a = b)
  /\ name (standard_sysroot a) = value a.
Proof.
  split.
  - destruct a, b; intros H; try reflexivity; vm_compute in H; discriminate H.
  - destruct a; reflexivity.
Qed.

Lemma standard_sysroot_injective_witness :
  path_str (standard_sysroot ARMV4) = path_str (standard_sysroot ARMV4)
  /\ ARMV4 = ARMV4.
Proof.
  split; [reflexivity|].
  exact (proj1 (standard_sysroot_injective ARMV4 ARMV4) eq_refl).
Defined.

(** X3.  On a host where detection answers, the answer is one of amd64,
    arm64, riscv64, powerpc and ppc64el, and its qemu name is the host's
    machine name, except on x86_64, where it is [amd64]. *)
Theorem match_current_arch_qemu_arch (os : OS) (a : Architecture) :
  match_current_arch os = Some a ->
  In a detected
  /\ (machine os <> "x86_64" -> qemu_arch a = ret (machine os))
  /\ (machine os = "x86_64" -> qemu_arch a = ret "amd64").
Proof.
  unfold match_current_arch, py_match. simpl.
  destruct (String.eqb_spec (machine os) "x86_64") as [E|_].
  { simpl. intros [= <-]. rewrite E. simpl.
    split; [tauto|]. split; [congruence | reflexivity]. }
  destruct (String.eqb_spec (machine os) "aarch64") as [E|_].
  { simpl. intros [= <-]. rewrite E. simpl.
    split; [tauto|]. split; [reflexivity | discriminate]. }
  destruct (String.eqb_spec (machine os) "riscv64") as [E|_].
  { simpl. intros [= <-]. rewrite E. simpl.
    split; [tauto|]. split; [reflexivity | discriminate]. }
  destruct (String.eqb_spec (machine os) "ppc") as [E|_].
  { simpl. intros [= <-]. rewrite E. simpl.
    split; [tauto|]. split; [reflexivity | discriminate]. }
  destruct (String.eqb_spec (machine os) "ppc64le") as [E|_].
  { simpl. intros [= <-]. rewrite E. simpl.
    split; [tauto|]. split; [reflexivity | discriminate]. }
  destruct (String.eqb (machine os) "mips64"); simpl; discriminate.
Qed.

Lemma match_current_arch_qemu_arch_witness :
  match_current_arch (on_machine "ppc64le" os_user) = Some PPC64EL
  /\ qemu_arch PPC64EL = ret "ppc64le"
  /\ match_current_arch os_user = Some AMD64
  /\ qemu_arch AMD64 = ret "amd64".
Proof.
  split; [reflexivity|]. split.
  - apply (proj1 (proj2 (match_current_arch_qemu_arch
                           (on_machine "ppc64le" os_user) PPC64EL eq_refl))).
    simpl. discriminate.
  - split; [reflexivity|].
    exact (proj2 (proj2 (match_current_arch_qemu_arch os_user AMD64 eq_refl))
             eq_refl).
Defined.

(** ** The interpreter line *)

Lemma append_assoc (s t u : string) : (s ++ t) ++ u = s ++ t ++ u.
Proof. induction s; simpl; congruence. Qed.

Lemma append_inv_head (s t u : string) : s ++ t = s ++ u -> t = u.
Proof. induction s; simpl; [auto | intros [= H]; auto]. Qed.



(** X5.  A registration that names the interpreter without a directory
    is rejected: the pattern wants at least one character before the
    name. *)
Theorem match_interp_rejects_bare_name (base : string) :
  base <> "" -> one_line base = true ->
  match_interp base (line ("interpreter " ++ base)) = None.
Proof.
  intros Hne Hl.
  destruct (match_interp base (line ("interpreter " ++ base))) as [p|] eqn:E;
    [exfalso | reflexivity].
  apply match_interp_sound in E. destruct E as (body & rest & E & -> & Hb & _).
  unfold line in E. rewrite !append_assoc in E.
  apply append_inv_head in E.
  (* the lengths force [body] to be one character and [rest] to be empty *)
  assert (Hlen := f_equal String.length E).
  rewrite !length_append in Hlen. simpl in Hlen.
  destruct body as [|c [|c' body]]; [congruence | | simpl in Hlen; lia].
  destruct rest as [|r rest]; [|simpl in Hlen; lia].
  (* then the last character of [base] would be the line feed *)
  clear Hb Hlen. simpl in E.
  assert (Hlast : forall s c, one_line s = true -> s <> "" ->
                    s ++ String LF "" <> String c (s ++ "")).
  { clear. induction s as [|x s IH]; intros c Hl Hne; [congruence|].
    simpl in Hl. apply andb_true_iff in Hl. destruct Hl as [Hx Hl].
    simpl. intros [= <- H].
    destruct s as [|y s].
    - simpl in H. injection H as H. subst x.
      vm_compute in Hx. discriminate.
    - exact (IH x Hl ltac:(discriminate) H). }
  exact (Hlast base c Hl Hne E).
Qed.

Lemma match_interp_rejects_bare_name_witness :
  "qemu-arm-static" <> "" /\ one_line "qemu-arm-static" = true
  /\ match_interp "qemu-arm-static" (line "interpreter qemu-arm-static") = None.
Proof.
  split; [discriminate|]. split; [reflexivity|].
  apply (match_interp_rejects_bare_name "qemu-arm-static");
    [discriminate | reflexivity].
Defined.

(** ** White space around the status token *)

Lemma lstrip_split (s : string) :
  exists ws, s = ws ++ lstrip s /\ all_space ws = true.
Proof.
  induction s as [|c s (ws & IH & Hws)]; [exists ""; auto|].
  simpl. destruct (isspace c) eqn:Ec.
  - exists (String c ws). simpl. rewrite Ec, Hws.
    split; [congruence | reflexivity].
  - exists "". auto.
Qed.

Lemma rstrip_split (s : string) :
  exists ws, s = rstrip s ++ ws /\ all_space ws = true.
Proof.
  induction s as [|c s (ws & IH & Hws)]; [exists ""; auto|].
  simpl. destruct (rstrip s) as [|d r] eqn:Er.
  - simpl in IH. subst ws. destruct (isspace c) eqn:Ec.
    + exists (String c s). simpl. rewrite Ec, Hws. auto.
    + exists s. auto.
  - exists ws. simpl. split; [f_equal; exact IH | exact Hws].
Qed.

Lemma lstrip_app_space (ws t : string) :
  all_space ws = true -> lstrip (ws ++ t) = lstrip t.
Proof.
  induction ws as [|c ws IH]; simpl; [reflexivity|].
  intros H. apply andb_true_iff in H. destruct H as [-> H]. auto.
Qed.

Lemma rstrip_all_space (ws : string) : all_space ws = true -> rstrip ws = "".
Proof.
  induction ws as [|c ws IH]; simpl; [reflexivity|].
  intros H. apply andb_true_iff in H. destruct H as [-> H].
  rewrite (IH H). reflexivity.
Qed.

Lemma rstrip_app_space (t ws : string) :
  all_space ws = true -> rstrip (t ++ ws) = rstrip t.
Proof.
  intros H. induction t as [|c t IH]; simpl.
  - apply rstrip_all_space, H.
  - rewrite IH. reflexivity.
Qed.

(** The lines [strip] turns into [enabled]. *)
Lemma strip_enabled_iff (l : string) :
  strip l = "enabled" <->
  exists ws ws', l = ws ++ "enabled" ++ ws'
                 /\ all_space ws = true /\ all_space ws' = true.
Proof.
  unfold strip. split.
  - intros H. destruct (lstrip_split l) as (ws & Hl & Hws).
    destruct (rstrip_split (lstrip l)) as (ws' & Hr & Hws').
    rewrite H in Hr. exists ws, ws'. rewrite <- Hr. auto.
  - intros (ws & ws' & -> & Hws & Hws').
    rewrite (lstrip_app_space ws _ Hws).
    change (lstrip ("enabled" ++ ws')) with ("enabled" ++ ws').
    rewrite (rstrip_app_space "enabled" ws' Hws'). reflexivity.
Qed.

(** ** More on the availability check *)

Lemma one_line_app (s t : string) :
  one_line (s ++ t) = one_line s && one_line t.
Proof.
  induction s as [|c s IH]; simpl; [reflexivity|].
  rewrite IH. apply andb_assoc.
Qed.

(** What a successful check went through. *)
Lemma have_qemu_success_inv (os : OS) (a : Architecture) (base reg p : string) :
  qemu_bin a = ret base -> binfmt_reg_name a = ret reg ->
  returned (have_qemu os a) = Ret (Some p) ->
  events (have_qemu os a) = []
  /\ exists l0 l1 more resolved,
       readlines os reg = Lines (l0 :: l1 :: more)
       /\ strip l0 = "enabled"
       /\ match_interp base l1 = Some p
       /\ resolve os (PosixPath p) = Ret resolved
       /\ name resolved = base.
Proof.
  intros Hb Hr. rewrite (have_qemu_unfold os a base reg Hb Hr).
  destruct (readlines os reg) as [e|[|l0 [|l1 more]]]; cbn; try discriminate.
  - destruct (String.eqb_spec (strip l0) "enabled"); discriminate.
  - destruct (String.eqb_spec (strip l0) "enabled") as [H0|]; [|discriminate].
    destruct (match_interp base l1) as [q|] eqn:Hm; [|discriminate].
    destruct (resolve os (PosixPath q)) as [resolved|e] eqn:Hres; [|discriminate].
    destruct (String.eqb_spec (name resolved) base) as [Hn|]; [|discriminate].
    cbn. intros [= ->]. split; [reflexivity|].
    exists l0, l1, more, resolved. auto.
Qed.

(** X6.  The path a successful check returns is taken from the second
    line of the registration file, right after [interpreter ]; it ends
    with the interpreter name, has at least one character before it and
    holds no line feed. *)
Theorem have_qemu_path_shape (os : OS) (a : Architecture) (base reg p : string) :
  qemu_bin a = ret base -> binfmt_reg_name a = ret reg ->
  returned (have_qemu os a) = Ret (Some p) ->
  (exists body, p = body ++ base /\ body <> "")
  /\ one_line p = true
  /\ exists l0 more rest,
       readlines os reg = Lines (l0 :: ("interpreter " ++ p ++ rest) :: more).
Proof.
  intros Hb Hr H.
  destruct (have_qemu_success_inv os a base reg p Hb Hr H)
    as (_ & l0 & l1 & more & resolved & Hc & _ & Hm & _).
  apply match_interp_sound in Hm.
  destruct Hm as (body & rest & -> & -> & Hne & Hl).
  split; [eauto|]. split.
  - destruct (qemu_bin_plain a) as (base' & Hb' & _ & Hl').
    assert (base' = base)
      by (rewrite Hb in Hb'; unfold ret in Hb'; congruence).
    subst base'.
    rewrite one_line_app, Hl, Hl'. reflexivity.
  - exists l0, more, rest. exact Hc.
Qed.

Lemma have_qemu_path_shape_witness :
  returned (have_qemu os_nested ARM64)
    = Ret (Some "/opt/qemu-aarch64-static/bin/qemu-aarch64-static")
  /\ one_line "/opt/qemu-aarch64-static/bin/qemu-aarch64-static" = true.
Proof.
  split; [reflexivity|].
  exact (proj1 (proj2 (have_qemu_path_shape os_nested ARM64
                         "qemu-aarch64-static" aarch64_reg
                         "/opt/qemu-aarch64-static/bin/qemu-aarch64-static"
                         eq_refl eq_refl eq_refl))).
Defined.

(** X7.  The check launches no process and logs only at level
    CRITICAL, at most twice.  A successful check and a check that raises
    log nothing; every answer [None] comes with a record that starts
    with [Architecture ] and the variant asked for. *)
Theorem have_qemu_diagnostics (os : OS) (a : Architecture) :
  launches (events (have_qemu os a)) = []
  /\ forallb is_critical (events (have_qemu os a)) = true
  /\ (List.length (events (have_qemu os a)) <= 2)%nat
  /\ (forall p, returned (have_qemu os a) = Ret (Some p) ->
        events (have_qemu os a) = [])
  /\ (forall e, returned (have_qemu os a) = Raise e ->
        events (have_qemu os a) = [])
  /\ (returned (have_qemu os a) = Ret None ->
        exists msg more,
          events (have_qemu os a)
          = Log CRITICAL (FLit "Architecture " :: FArch a :: msg) :: more).
Proof.
  destruct (qemu_bin_returns a) as (arch & _ & Hb & Hr).
  rewrite (have_qemu_unfold os a _ _ Hb Hr).
  destruct (readlines os _) as [e|[|l0 more]].
  - cbn. repeat split; try discriminate; try lia. eauto.
  - cbn. repeat split; try discriminate; try lia.
  - destruct (String.eqb (strip l0) "enabled").
    + destruct more as [|l1 more].
      * cbn. repeat split; try discriminate; try lia.
      * destruct (match_interp _ l1) as [p|].
        -- destruct (resolve os (PosixPath p)) as [resolved|e].
           ++ destruct (String.eqb (name resolved) _);
                cbn; repeat split; try discriminate; try lia. eauto.
           ++ cbn. repeat split; try discriminate; try lia.
        -- cbn. repeat split; try discriminate; try lia. eauto.
    + cbn. repeat split; try discriminate; try lia. eauto.
Qed.

Lemma have_qemu_diagnostics_witness :
  returned (have_qemu os_other_interp ARM64) = Ret None
  /\ exists msg more,
       events (have_qemu os_other_interp ARM64)
       = Log CRITICAL (FLit "Architecture " :: FArch ARM64 :: msg) :: more.
Proof.
  split; [reflexivity|].
  exact (proj2 (proj2 (proj2 (proj2 (proj2
           (have_qemu_diagnostics os_other_interp ARM64))))) eq_refl).
Defined.

(** X8.  Variants of the same qemu name are not told apart by the
    check: on every host it returns the same for both.  This holds for
    the three 32-bit ARM variants as for loongson3 and mips64r6el. *)
Theorem have_qemu_same_qemu_arch (a b : Architecture) :
  qemu_arch a = qemu_arch b ->
  forall os : OS, returned (have_qemu os a) = returned (have_qemu os b).
Proof.
  intros Hab os.
  destruct (qemu_bin_returns a) as (arch & Ha & Hba & Hra).
  destruct (qemu_bin_returns b) as (arch' & Hb & Hbb & Hrb).
  assert (arch' = arch)
    by (rewrite Hab, Hb in Ha; unfold ret in Ha; congruence).
  subst arch'.
  rewrite (have_qemu_unfold os a _ _ Hba Hra), (have_qemu_unfold os b _ _ Hbb Hrb).
  destruct (readlines os _) as [e|[|l0 [|l1 more]]]; try reflexivity.
  - destruct (String.eqb (strip l0) "enabled"); reflexivity.
  - destruct (String.eqb (strip l0) "enabled"); [|reflexivity].
    destruct (match_interp _ l1) as [p|]; [|reflexivity].
    destruct (resolve os _) as [resolved|e]; [|reflexivity].
    destruct (String.eqb _ _); reflexivity.
Qed.

Lemma have_qemu_same_qemu_arch_witness :
  qemu_arch ARMV4 = qemu_arch ARMV7HF
  /\ returned (have_qemu os_registered ARMV4)
     = returned (have_qemu os_registered ARMV7HF).
Proof.
  split; [reflexivity|].
  exact (have_qemu_same_qemu_arch ARMV4 ARMV7HF eq_refl os_registered).
Defined.

(** X9.  Only the first two lines of the registration file are read:
    replacing what follows them changes nothing in what the check
    returns.  An interpreter line further down is not looked for. *)
Theorem have_qemu_reads_two_lines
    (os : OS) (a : Architecture) (reg l0 l1 : string) (more more' : list string) :
  binfmt_reg_name a = ret reg ->
  readlines os reg = Lines (l0 :: l1 :: more) ->
  returned (have_qemu (with_file reg (l0 :: l1 :: more') os) a)
  = returned (have_qemu os a).
Proof.
  intros Hr Hc.
  destruct (qemu_bin_returns a) as (arch & _ & Hb & _).
  rewrite (have_qemu_unfold os a _ reg Hb Hr), Hc.
  rewrite (have_qemu_unfold (with_file reg (l0 :: l1 :: more') os) a _ reg Hb Hr).
  cbn [readlines with_file resolve]. rewrite String.eqb_refl.
  destruct (String.eqb (strip l0) "enabled"); [|reflexivity].
  destruct (match_interp _ l1) as [p|]; [|reflexivity].
  destruct (resolve os _) as [resolved|e]; [|reflexivity].
  destruct (String.eqb _ _); reflexivity.
Qed.

Lemma have_qemu_reads_two_lines_witness :
  binfmt_reg_name ARM64 = ret aarch64_reg
  /\ returned (have_qemu
                 (with_file aarch64_reg
                    [line "enabled"; line "flags: OCF";
                     line "interpreter /usr/bin/qemu-aarch64-static"]
                    os_other_interp) ARM64)
     = Ret None.
Proof.
  split; [reflexivity|].
  pose (os' := with_file aarch64_reg
                 [line "enabled"; line "flags: OCF"; line "offset 0"]
                 os_other_interp).
  change (Ret (@None string)) with (returned (have_qemu os' ARM64)).
  apply (have_qemu_reads_two_lines os' ARM64 aarch64_reg
           (line "enabled") (line "flags: OCF") [line "offset 0"]
           [line "interpreter /usr/bin/qemu-aarch64-static"]);
    reflexivity.
Defined.

(** X10.  The check stops at the first line, answering [None] with the
    two records of that branch, exactly when the line is not [enabled]
    with nothing but white space before and after it. *)
Theorem have_qemu_first_line
    (os : OS) (a : Architecture) (reg l0 : string) (more : list string) :
  binfmt_reg_name a = ret reg ->
  readlines os reg = Lines (l0 :: more) ->
  (have_qemu os a = (Ret None, not_enabled_records a (l0 :: more))) <->
  ~ (exists ws ws', l0 = ws ++ "enabled" ++ ws'
                    /\ all_space ws = true /\ all_space ws' = true).
Proof.
  intros Hr Hc. rewrite <- strip_enabled_iff.
  destruct (qemu_bin_returns a) as (arch & _ & Hb & _).
  rewrite (have_qemu_unfold os a _ reg Hb Hr), Hc.
  destruct (String.eqb_spec (strip l0) "enabled") as [H0|H0].
  - split; [|contradiction]. intros H. exfalso.
    destruct more as [|l1 more]; [discriminate H|].
    destruct (match_interp _ l1) as [p|]; [|discriminate H].
    destruct (resolve os _) as [resolved|e]; [|discriminate H].
    destruct (String.eqb _ _); discriminate H.
  - split; [auto | reflexivity].
Qed.

Lemma have_qemu_first_line_witness :
  binfmt_reg_name ARM64 = ret aarch64_reg
  /\ ~ (exists ws ws', line "disabled" = ws ++ "enabled" ++ ws'
                       /\ all_space ws = true /\ all_space ws' = true).
Proof.
  split; [reflexivity|].
  apply (proj1 (have_qemu_first_line os_disabled ARM64 aarch64_reg
                  (line "disabled")
                  [line "interpreter /usr/bin/qemu-aarch64-static";
                   line "flags: OCF"; line "offset 0";
                   line "magic 7f454c460201010000000000000000000200b700";
                   line "mask ffffffffffffff00fffffffffffffffffeffffff"]
                  eq_refl eq_refl)).
  reflexivity.
Defined.

(** ** More on process invocation *)

(** X11.  For the superuser [privileged_call] is [regular_call]; for
    anyone else it is the disclosure record followed by [regular_call]
    on the command with [sudo] in front. *)
Theorem privileged_call_is_regular_call
    (os : OS) (argv : list string) (interactive : bool) :
  (geteuid os = 0%Z ->
     privileged_call os argv interactive = regular_call os argv interactive)
  /\ (geteuid os <> 0%Z ->
        privileged_call os argv interactive =
        (returned (regular_call os ("sudo" :: argv) interactive),
         Log INFO [FLit "!!! About to run "; FList ("sudo" :: argv)]
         :: events (regular_call os ("sudo" :: argv) interactive))).
Proof.
  unfold privileged_call, regular_call. split; intros H.
  - rewrite H. cbn [Z.eqb negb app]. rewrite bind_ret_l. reflexivity.
  - apply Z.eqb_neq in H. rewrite H. cbn [negb app].
    unfold logger_info. rewrite bind_emit. reflexivity.
Qed.

Lemma privileged_call_is_regular_call_witness :
  geteuid (as_root os_user) = 0%Z
  /\ privileged_call (as_root os_user) ["chroot"; "/mnt"] true
     = regular_call (as_root os_user) ["chroot"; "/mnt"] true.
Proof.
  split; [reflexivity|].
  exact (proj1 (privileged_call_is_regular_call (as_root os_user)
                  ["chroot"; "/mnt"] true) eq_refl).
Defined.

(** X12.  With [interactive] set nothing is captured: the launcher is
    asked not to capture, both text fields returned are [None], and the
    exit status of the child is still returned unchanged. *)
Theorem regular_call_interactive (os : OS) (argv : list string) (c : child) :
  spawn os argv = Started c ->
  regular_call os argv true
  = (Ret (None, None, status c), [Exec argv false]).
Proof.
  intros H. unfold regular_call, subprocess_run. rewrite H. reflexivity.
Qed.

Lemma regular_call_interactive_witness :
  spawn os_user ["sh"] = Started {| out := "listing"; err := "warning"; status := 2 |}
  /\ regular_call os_user ["sh"] true
     = (Ret (None, None, 2%Z), [Exec ["sh"] false]).
Proof.
  split; [reflexivity|].
  exact (regular_call_interactive os_user ["sh"]
           {| out := "listing"; err := "warning"; status := 2 |} eq_refl).
Defined.

(** X13.  A command the host cannot start makes both calls raise the
    launcher's [OSError], which neither catches; [privileged_call] has
    by then logged the command it was about to run, when not run by the
    superuser. *)
Theorem calls_propagate_launch_failure
    (os : OS) (argv : list string) (interactive : bool) (strerror : string) :
  (spawn os argv = NotStarted strerror ->
     regular_call os argv interactive
     = (Raise (OSError strerror), [Exec argv (negb interactive)]))
  /\ (spawn os (call_args os argv) = NotStarted strerror ->
        returned (privileged_call os argv interactive) = Raise (OSError strerror)
        /\ logged (events (privileged_call os argv interactive))
           = if Z.eqb (geteuid os) 0 then []
             else [Log INFO [FLit "!!! About to run "; FList ("sudo" :: argv)]]).
Proof.
  split; intros H.
  - unfold regular_call, subprocess_run. rewrite H. reflexivity.
  - split.
    + unfold privileged_call, subprocess_run. fold (call_args os argv).
      rewrite H. destruct (negb (Z.eqb (geteuid os) 0)); reflexivity.
    + rewrite privileged_call_events. unfold call_args.
      destruct (Z.eqb (geteuid os) 0); reflexivity.
Qed.

Lemma calls_propagate_launch_failure_witness :
  spawn os_only_ls ["mount"] = NotStarted "No such file or directory"
  /\ regular_call os_only_ls ["mount"] false
     = (Raise (OSError "No such file or directory"), [Exec ["mount"] true]).
Proof.
  split; [reflexivity|].
  exact (proj1 (calls_propagate_launch_failure os_only_ls ["mount"] false
                  "No such file or directory") eq_refl).
Defined.
